(** * sistema_refatorado.py: order processing with injected payment and notification

    A shallow embedding of [src/resolucao/sistema_refatorado.py].  An order
    ([pedido]) is a Python [dict] with string keys; it is passed by reference
    to the payment method and to every notifier, so all of them act on one
    shared object.  Python code is embedded in a state-and-exception monad
    over that shared order, the console, and a trace of the calls and writes
    the orchestrator performs. *)

From Stdlib Require Import ZArith String List.
From Stdlib Require Import Floats.PrimFloat.
From stdpp Require Import gmap strings list fin_maps.

Local Open Scope string_scope.
Local Open Scope list_scope.

(** ** Python values and exceptions *)

(** The values that the fields of an order hold. *)
Inductive PyVal : Type :=
| PyNone
| PyBool (b : bool)
| PyInt (z : Z)
| PyFloat (f : float)
| PyStr (s : string).

(** Exceptions.  The last three derive from [BaseException] only; every other
    one derives from [Exception]. *)
Inductive PyExc : Type :=
| KeyError (chave : string)
| TypeError
| ValueError
| OverflowError
| OutraException (nome : string)
| SystemExit
| KeyboardInterrupt
| GeneratorExit.

(** [isinstance(e, Exception)]: what [except Exception] catches. *)
Definition e_Exception (e : PyExc) : bool :=
  match e with
  | SystemExit | KeyboardInterrupt | GeneratorExit => false
  | _ => true
  end.

(** Truth value of an object, as tested by [not x]. *)
Definition verdadeiro (v : PyVal) : bool :=
  match v with
  | PyNone => false
  | PyBool b => b
  | PyInt z => negb (Z.eqb z 0)
  | PyFloat f => negb (PrimFloat.eqb f 0%float)
  | PyStr s => negb (String.eqb s "")
  end.

(** An order: a [dict] with string keys. *)
Abbreviation Pedido := (gmap string PyVal).

(** ** Console output

    A printed line is kept as the pieces of its f-string: literal text and
    replacement fields holding the value that was formatted. *)
Inductive Fragmento : Type :=
| Texto (s : string)
| Campo (v : PyVal)
| Campo2f (v : PyVal)
| CampoExc (e : PyExc).

Abbreviation Linha := (list Fragmento).

(** How a call ends: with a value or raising. *)
Inductive Fim (A : Type) : Type :=
| Retorna (a : A)
| Levanta (e : PyExc).
Arguments Retorna {A} a.
Arguments Levanta {A} e.

(** [int] is converted to [float] before the fixed-point formatting; the
    conversion raises [OverflowError] from this magnitude on. *)
Definition limite_float : Z := (2 ^ 1024 - 2 ^ 970)%Z.

(** The replacement field [{v:.2f}]. *)
Definition formato_2f (v : PyVal) : Fim Fragmento :=
  match v with
  | PyFloat _ => Retorna (Campo2f v)
  | PyBool _ => Retorna (Campo2f v)
  | PyInt z =>
      if Z.ltb (Z.abs z) limite_float then Retorna (Campo2f v)
      else Levanta OverflowError
  | PyStr _ => Levanta ValueError
  | PyNone => Levanta TypeError
  end.

(** ** The abstractions [MetodoPagamento] and [Notificador]

    What a call of an injected object does, seen from the caller: the order
    as the call leaves it, the lines it prints, and how it ends. *)
Record Efeito : Type := {
  ef_pedido : Pedido;
  ef_saida : list Linha;
  ef_fim : Fim PyVal
}.

Record MetodoPagamento : Type := {
  processar_pagamento : Pedido -> Efeito
}.

Record Notificador : Type := {
  enviar_notificacao : Pedido -> Efeito
}.

(** ** State and monad *)

(** What the orchestrator does to its collaborators and to the order. *)
Inductive Evento : Type :=
| EvPagamento (m : MetodoPagamento)
| EvNotificacao (n : Notificador)
| EvAtribui (chave : string) (v : PyVal).

Record Mundo : Type := {
  pedido : Pedido;
  saida : list Linha;
  eventos : list Evento
}.

Definition Py (A : Type) : Type := Mundo -> Fim A * Mundo.

Definition retorna {A} (a : A) : Py A := fun w => (Retorna a, w).

Definition levanta {A} (e : PyExc) : Py A := fun w => (Levanta e, w).

Definition liga {A B} (m : Py A) (k : A -> Py B) : Py B :=
  fun w =>
    match m w with
    | (Retorna a, w') => k a w'
    | (Levanta e, w') => (Levanta e, w')
    end.

Notation "x <- m ;; k" := (liga m (fun x => k))
  (at level 100, m at next level, right associativity).
Notation "m ;;; k" := (liga m (fun _ => k))
  (at level 100, right associativity).

(** [try: m except Exception as e: h e] *)
Definition tenta {A} (m : Py A) (h : PyExc -> Py A) : Py A :=
  fun w =>
    match m w with
    | (Retorna a, w') => (Retorna a, w')
    | (Levanta e, w') => if e_Exception e then h e w' else (Levanta e, w')
    end.

(** [pedido[chave]] *)
Definition item (chave : string) : Py PyVal :=
  fun w =>
    match pedido w !! chave with
    | Some v => (Retorna v, w)
    | None => (Levanta (KeyError chave), w)
    end.

(** [pedido[chave] = v] *)
Definition atribui (chave : string) (v : PyVal) : Py unit :=
  fun w =>
    (Retorna tt,
     {| pedido := <[chave := v]> (pedido w);
        saida := saida w;
        eventos := eventos w ++ [EvAtribui chave v] |}).

(** [print(linha)] *)
Definition imprime (l : Linha) : Py unit :=
  fun w =>
    (Retorna tt,
     {| pedido := pedido w; saida := saida w ++ [l]; eventos := eventos w |}).

Definition formata (r : Fim Fragmento) : Py Fragmento :=
  fun w =>
    match r with
    | Retorna t => (Retorna t, w)
    | Levanta e => (Levanta e, w)
    end.

Definition registra (ev : Evento) : Py unit :=
  fun w =>
    (Retorna tt,
     {| pedido := pedido w; saida := saida w; eventos := eventos w ++ [ev] |}).

(** Calling a method of an injected object on the shared order. *)
Definition invoca (f : Pedido -> Efeito) : Py PyVal :=
  fun w =>
    let ef := f (pedido w) in
    (ef_fim ef,
     {| pedido := ef_pedido ef;
        saida := saida w ++ ef_saida ef;
        eventos := eventos w |}).

(** The body of a method, as its caller sees it. *)
Definition metodo (corpo : Py PyVal) (p : Pedido) : Efeito :=
  let r := corpo {| pedido := p; saida := []; eventos := [] |} in
  {| ef_pedido := pedido (snd r); ef_saida := saida (snd r); ef_fim := fst r |}.

(** ** Payment implementations *)

Definition PagamentoCartaoCredito : MetodoPagamento :=
  {| processar_pagamento := metodo (
       valor <- item "valor" ;;
       t <- formata (formato_2f valor) ;;
       imprime [Texto "Pagando R$ "; t; Texto " com cartão de crédito..."] ;;;
       retorna (PyBool true)) |}.

Definition PagamentoBoleto : MetodoPagamento :=
  {| processar_pagamento := metodo (
       valor <- item "valor" ;;
       t <- formata (formato_2f valor) ;;
       imprime [Texto "Gerando boleto no valor de R$ "; t; Texto "..."] ;;;
       retorna (PyBool true)) |}.

Definition PagamentoPix : MetodoPagamento :=
  {| processar_pagamento := metodo (
       valor <- item "valor" ;;
       t <- formata (formato_2f valor) ;;
       imprime [Texto "Processando pagamento Pix no valor de R$ "; t; Texto "..."] ;;;
       imprime [Texto "QR Code gerado! Pagamento processado via Pix."] ;;;
       retorna (PyBool true)) |}.

(** ** Notification implementations *)

Definition NotificadorEmail : Notificador :=
  {| enviar_notificacao := metodo (
       email <- item "cliente_email" ;;
       imprime [Texto "Enviando e-mail de confirmação para "; Campo email; Texto "..."] ;;;
       retorna (PyBool true)) |}.

Definition NotificadorSMS : Notificador :=
  {| enviar_notificacao := metodo (
       id <- item "id" ;;
       imprime [Texto "Enviando SMS de confirmação para o telefone do pedido #";
                Campo id; Texto "..."] ;;;
       retorna (PyBool true)) |}.

(** ** The order processor *)

Record ProcessadorDePedidos : Type := {
  metodo_pagamento : MetodoPagamento;
  notificadores : list Notificador
}.

(** [ProcessadorDePedidos(metodo_pagamento, notificadores)] *)
Definition novo_ProcessadorDePedidos
    (mp : MetodoPagamento) (ns : list Notificador) : Py ProcessadorDePedidos :=
  retorna {| metodo_pagamento := mp; notificadores := ns |}.

Definition chama_pagamento (m : MetodoPagamento) : Py PyVal :=
  registra (EvPagamento m) ;;; invoca (processar_pagamento m).

Definition chama_notificador (n : Notificador) : Py PyVal :=
  registra (EvNotificacao n) ;;; invoca (enviar_notificacao n).

(** [for notificador in self.notificadores: notificador.enviar_notificacao(pedido)] *)
Fixpoint notifica (ns : list Notificador) : Py unit :=
  match ns with
  | [] => retorna tt
  | n :: resto => chama_notificador n ;;; notifica resto
  end.

(** The [try] block of [processar]. *)
Definition processar_corpo (self : ProcessadorDePedidos) : Py bool :=
  id <- item "id" ;;
  valor <- item "valor" ;;
  t <- formata (formato_2f valor) ;;
  imprime [Texto "Processando o pedido #"; Campo id;
           Texto " no valor de R$ "; t; Texto "..."] ;;;
  pago <- chama_pagamento (metodo_pagamento self) ;;
  if negb (verdadeiro pago) then
    imprime [Texto "Falha no processamento do pagamento!"] ;;;
    retorna false
  else
    notifica (notificadores self) ;;;
    atribui "status" (PyStr "concluido") ;;;
    imprime [Texto "Pedido concluído!"] ;;;
    retorna true.

Definition processar (self : ProcessadorDePedidos) : Py bool :=
  tenta (processar_corpo self)
    (fun e =>
       imprime [Texto "Erro ao processar pedido: "; CampoExc e] ;;;
       retorna false).

(** ** The factory *)

Module FabricaProcessadores.

Definition criar_processador_cartao_email : Py ProcessadorDePedidos :=
  novo_ProcessadorDePedidos PagamentoCartaoCredito [NotificadorEmail].

Definition criar_processador_boleto_email : Py ProcessadorDePedidos :=
  novo_ProcessadorDePedidos PagamentoBoleto [NotificadorEmail].

Definition criar_processador_pix_sms_email : Py ProcessadorDePedidos :=
  novo_ProcessadorDePedidos PagamentoPix [NotificadorSMS; NotificadorEmail].

End FabricaProcessadores.

(** ** Vocabulary of the properties *)

(** The amount is a value that [{valor:.2f}] accepts. *)
Definition formatavel (v : PyVal) : bool :=
  match formato_2f v with
  | Retorna _ => true
  | Levanta _ => false
  end.

(** The fields read by the opening line of [processar] are there. *)
Definition cabecalho_ok (p : Pedido) : bool :=
  match p !! "id", p !! "valor" with
  | Some _, Some v => formatavel v
  | _, _ => false
  end.

(** A valid order: the four fields are present and the amount is a number. *)
Definition pedido_valido (p : Pedido) : bool :=
  match p !! "id", p !! "valor", p !! "cliente_email", p !! "status" with
  | Some _, Some v, Some _, Some _ => formatavel v
  | _, _, _, _ => false
  end.

Definition pendente : PyVal := PyStr "pendente".
Definition concluido : PyVal := PyStr "concluido".


(** A method that never writes to the order it is given, however it ends. *)
Definition somente_leitura (f : Pedido -> Efeito) : Prop :=
  forall p, ef_pedido (f p) = p.


(** Called on [p], the method returns [v] and leaves [p] as it was. *)
Definition devolve (f : Pedido -> Efeito) (p : Pedido) (v : PyVal) : Prop :=
  ef_pedido (f p) = p /\ ef_fim (f p) = Retorna v.

(** The notifiers that were called, in the order of the calls. *)
Fixpoint notificacoes (evs : list Evento) : list Notificador :=
  match evs with
  | [] => []
  | EvNotificacao n :: resto => n :: notificacoes resto
  | _ :: resto => notificacoes resto
  end.

(** The payment methods that were called, in the order of the calls. *)
Fixpoint pagamentos (evs : list Evento) : list MetodoPagamento :=
  match evs with
  | [] => []
  | EvPagamento m :: resto => m :: pagamentos resto
  | _ :: resto => pagamentos resto
  end.

(** Everything [processar] does to its collaborators and to the order when
    nothing stops it. *)
Definition eventos_completos (self : ProcessadorDePedidos) : list Evento :=
  EvPagamento (metodo_pagamento self)
    :: map EvNotificacao (notificadores self) ++ [EvAtribui "status" concluido].

(** A state holding the order, with an empty console and an empty trace. *)
Definition mundo_inicial (p : Pedido) : Mundo :=
  {| pedido := p; saida := []; eventos := [] |}.

(** ** Sample data: the orders and combinations of the example run *)

Definition pedido1 : Pedido :=
  <["id" := PyInt 123]> (<["valor" := PyFloat 150.75%float]>
    (<["cliente_email" := PyStr "cliente@exemplo.com"]>
      (<["status" := PyStr "pendente"]> ∅))).

Definition pedido3 : Pedido :=
  <["id" := PyInt 789]> (<["valor" := PyFloat 89.5%float]>
    (<["cliente_email" := PyStr "cliente3@exemplo.com"]>
      (<["status" := PyStr "pendente"]> ∅))).

Definition processador_cartao_email : ProcessadorDePedidos :=
  {| metodo_pagamento := PagamentoCartaoCredito;
     notificadores := [NotificadorEmail] |}.

Definition processador_pix_sms_email : ProcessadorDePedidos :=
  {| metodo_pagamento := PagamentoPix;
     notificadores := [NotificadorSMS; NotificadorEmail] |}.


Definition pedido_sem_email : Pedido :=
  delete "cliente_email" pedido1.

Definition processador_pix_email_sms : ProcessadorDePedidos :=
  {| metodo_pagamento := PagamentoPix;
     notificadores := [NotificadorEmail; NotificadorSMS] |}.

(** Test doubles: a payment method that answers [v] and otherwise does
    nothing, and a notifier that raises [e]. *)
Definition PagamentoFixo (v : PyVal) : MetodoPagamento :=
  {| processar_pagamento := metodo (retorna v) |}.

Definition NotificadorQueLevanta (e : PyExc) : Notificador :=
  {| enviar_notificacao := metodo (levanta e) |}.

Definition processador_cartao_notificador_falho : ProcessadorDePedidos :=
  {| metodo_pagamento := PagamentoCartaoCredito;
     notificadores := [NotificadorQueLevanta (OutraException "RuntimeError")] |}.

(** The lines printed when [processar] starts and when it catches [e]. *)
Definition linha_abertura (i v : PyVal) : Linha :=
  [Texto "Processando o pedido #"; Campo i; Texto " no valor de R$ ";
   Campo2f v; Texto "..."].

Definition linha_erro (e : PyExc) : Linha :=
  [Texto "Erro ao processar pedido: "; CampoExc e].

(** The lines printed when the payment is refused and when the order is
    concluded. *)
Definition linha_falha : Linha :=
  [Texto "Falha no processamento do pagamento!"].

Definition linha_concluido : Linha :=
  [Texto "Pedido concluído!"].

(** Orders that lack the identifier, or whose amount is text. *)
Definition pedido_sem_id : Pedido :=
  delete "id" pedido1.

Definition pedido_valor_texto : Pedido :=
  <["valor" := PyStr "150,75"]> pedido1.


(** * Properties *)

(** ** The statements of [processar], run symbolically *)

Lemma formatavel_formato v :
  formatavel v = true -> formato_2f v = Retorna (Campo2f v).
Proof.
  unfold formatavel. destruct v; simpl; try discriminate; try reflexivity.
  destruct (Z.ltb (Z.abs z) limite_float); [reflexivity | discriminate].
Qed.

Lemma formato_levanta_Exception v e :
  formato_2f v = Levanta e -> e_Exception e = true.
Proof.
  destruct v; simpl; try discriminate; try (intros [= <-]; reflexivity).
  destruct (Z.ltb (Z.abs z) limite_float); [discriminate | intros [= <-]; reflexivity].
Qed.

Lemma processar_corpo_apos_cabecalho self w i v :
  pedido w !! "id" = Some i -> pedido w !! "valor" = Some v -> formatavel v = true ->
  let ef := processar_pagamento (metodo_pagamento self) (pedido w) in
  let w1 := {| pedido := ef_pedido ef;
               saida := (saida w ++ [linha_abertura i v]) ++ ef_saida ef;
               eventos := eventos w ++ [EvPagamento (metodo_pagamento self)] |} in
  processar_corpo self w =
    match ef_fim ef with
    | Levanta e => (Levanta e, w1)
    | Retorna pago =>
        if verdadeiro pago then
          match notifica (notificadores self) w1 with
          | (Retorna _, w2) =>
              (Retorna true,
               {| pedido := <["status" := concluido]> (pedido w2);
                  saida := saida w2 ++ [[Texto "Pedido concluído!"]];
                  eventos := eventos w2 ++ [EvAtribui "status" concluido] |})
          | (Levanta e, w2) => (Levanta e, w2)
          end
        else
          (Retorna false,
           {| pedido := pedido w1;
              saida := saida w1 ++ [[Texto "Falha no processamento do pagamento!"]];
              eventos := eventos w1 |})
    end.
Proof.
  intros Hi Hv Hf ef w1.
  unfold processar_corpo, liga at 1, item. rewrite Hi.
  unfold liga at 1. rewrite Hv.
  unfold liga at 1, formata. rewrite (formatavel_formato _ Hf).
  unfold liga at 1, imprime.
  unfold liga at 1, chama_pagamento, liga at 1, registra, invoca.
  cbn [pedido saida eventos].
  fold ef. destruct (ef_fim ef) as [pago|e]; [|reflexivity].
  destruct (verdadeiro pago); cbn [negb].
  - unfold liga at 1. subst w1. unfold linha_abertura.
    destruct (notifica _ _) as [[u|e] w2]; reflexivity.
  - reflexivity.
Qed.

Lemma cabecalho_ok_inv p :
  cabecalho_ok p = true ->
  exists i v, p !! "id" = Some i /\ p !! "valor" = Some v /\ formatavel v = true.
Proof.
  unfold cabecalho_ok. destruct (p !! "id") as [i|]; [|discriminate].
  destruct (p !! "valor") as [v|]; [|discriminate]. eauto.
Qed.

Lemma pedido_valido_inv p :
  pedido_valido p = true ->
  cabecalho_ok p = true /\ is_Some (p !! "cliente_email") /\ is_Some (p !! "status").
Proof.
  unfold pedido_valido, cabecalho_ok.
  destruct (p !! "id"); [|discriminate]. destruct (p !! "valor"); [|discriminate].
  destruct (p !! "cliente_email"); [|discriminate].
  destruct (p !! "status"); [|discriminate]. eauto.
Qed.

Lemma processar_corpo_sem_cabecalho self w :
  cabecalho_ok (pedido w) = false ->
  exists e, processar_corpo self w = (Levanta e, w) /\ e_Exception e = true.
Proof.
  unfold cabecalho_ok, processar_corpo, liga at 1, item.
  destruct (pedido w !! "id") as [i|]; [|eauto].
  unfold liga at 1. destruct (pedido w !! "valor") as [v|]; [|eauto].
  unfold liga at 1, formata, formatavel.
  destruct (formato_2f v) as [t|e] eqn:Hf; [discriminate|].
  intros _. exists e. split; [reflexivity|]. eapply formato_levanta_Exception; eauto.
Qed.

Lemma processar_eq self w :
  processar self w =
    match processar_corpo self w with
    | (Retorna b, w') => (Retorna b, w')
    | (Levanta e, w') =>
        if e_Exception e then
          (Retorna false,
           {| pedido := pedido w'; saida := saida w' ++ [linha_erro e];
              eventos := eventos w' |})
        else (Levanta e, w')
    end.
Proof. reflexivity. Qed.

(** The loop over the notifiers. *)

Lemma notifica_cons n ns w :
  notifica (n :: ns) w =
    let ef := enviar_notificacao n (pedido w) in
    let w1 := {| pedido := ef_pedido ef; saida := saida w ++ ef_saida ef;
                 eventos := eventos w ++ [EvNotificacao n] |} in
    match ef_fim ef with
    | Retorna _ => notifica ns w1
    | Levanta e => (Levanta e, w1)
    end.
Proof.
  cbn [notifica]. unfold liga at 1, chama_notificador, liga at 1, registra, invoca.
  cbn [pedido saida eventos].
  destruct (ef_fim (enviar_notificacao n (pedido w))); reflexivity.
Qed.

Lemma notifica_eventos ns w :
  exists k, k <= length ns /\
    eventos (snd (notifica ns w)) = eventos w ++ map EvNotificacao (take k ns) /\
    (forall u, fst (notifica ns w) = Retorna u -> k = length ns).
Proof.
  revert w. induction ns as [|n ns IH]; intros w.
  - exists 0. cbn. rewrite app_nil_r. auto.
  - rewrite notifica_cons. cbv zeta.
    destruct (ef_fim (enviar_notificacao n (pedido w))) as [v|e].
    + destruct (IH {| pedido := ef_pedido (enviar_notificacao n (pedido w));
                      saida := saida w ++ ef_saida (enviar_notificacao n (pedido w));
                      eventos := eventos w ++ [EvNotificacao n] |}) as (k & Hk & Hev & Hfim).
      exists (S k). split; [cbn; lia|]. split.
      * rewrite Hev. cbn. rewrite <- app_assoc. reflexivity.
      * intros u Hu. cbn. f_equal. eauto.
    + exists 1. split; [cbn; lia|]. split.
      * cbn. rewrite take_0. reflexivity.
      * cbn. discriminate.
Qed.



Lemma notifica_devolve ns w :
  Forall (fun n => exists v, devolve (enviar_notificacao n) (pedido w) v) ns ->
  fst (notifica ns w) = Retorna tt /\
  pedido (snd (notifica ns w)) = pedido w /\
  eventos (snd (notifica ns w)) = eventos w ++ map EvNotificacao ns.
Proof.
  revert w. induction ns as [|n ns IH]; intros w Hns.
  - cbn. rewrite app_nil_r. auto.
  - inversion Hns as [|? ? (v & Hp & Hv) Hresto]; subst.
    rewrite notifica_cons. cbv zeta. rewrite Hv.
    set (w1 := {| pedido := _ |}).
    assert (Hw1 : pedido w1 = pedido w) by (subst w1; cbn; exact Hp).
    destruct (IH w1) as (Hf & Hped & Hev).
    { rewrite Hw1. exact Hresto. }
    split; [exact Hf|]. split; [congruence|].
    rewrite Hev. subst w1. cbn. rewrite <- app_assoc. reflexivity.
Qed.

Lemma notificacoes_app l1 l2 :
  notificacoes (l1 ++ l2) = notificacoes l1 ++ notificacoes l2.
Proof.
  induction l1 as [|[m|n|c v] l1 IH]; cbn; [reflexivity | exact IH | | exact IH].
  f_equal. exact IH.
Qed.

Lemma notificacoes_map ns : notificacoes (map EvNotificacao ns) = ns.
Proof. induction ns as [|n ns IH]; cbn; [reflexivity | f_equal; exact IH]. Qed.


(** The implementations of the repository. *)

Lemma metodo_apos_item chave (k : PyVal -> Py PyVal) p :
  (forall v w, pedido (snd (k v w)) = pedido w) ->
  ef_pedido (metodo (x <- item chave ;; k x) p) = p.
Proof.
  intros Hk. unfold metodo, liga, item. cbn [pedido].
  destruct (p !! chave) as [v|]; [|reflexivity].
  cbn [ef_pedido]. rewrite Hk. reflexivity.
Qed.

Lemma imprime_formatado_leitura (f : Fragmento -> Py PyVal) v w :
  (forall t w', pedido (snd (f t w')) = pedido w') ->
  pedido (snd ((t <- formata (formato_2f v) ;; f t) w)) = pedido w.
Proof.
  intros Hf. unfold liga, formata. destruct (formato_2f v) as [t|e]; [apply Hf | reflexivity].
Qed.

Lemma pagamentos_somente_leitura :
  somente_leitura (processar_pagamento PagamentoCartaoCredito)
  /\ somente_leitura (processar_pagamento PagamentoBoleto)
  /\ somente_leitura (processar_pagamento PagamentoPix).
Proof.
  repeat split; intros p; cbn [processar_pagamento];
    apply metodo_apos_item; intros v w;
    apply imprime_formatado_leitura; intros t w'; reflexivity.
Qed.

Lemma notificadores_somente_leitura :
  somente_leitura (enviar_notificacao NotificadorEmail)
  /\ somente_leitura (enviar_notificacao NotificadorSMS).
Proof.
  split; intros p; cbn [enviar_notificacao];
    apply metodo_apos_item; intros v w; reflexivity.
Qed.

Lemma metodo_item_fim chave (k : PyVal -> Py PyVal) p v :
  p !! chave = Some v ->
  ef_fim (metodo (x <- item chave ;; k x) p) = fst (k v (mundo_inicial p)).
Proof. intros H. unfold metodo, liga, item. cbn [pedido ef_fim]. rewrite H. reflexivity. Qed.




Lemma pagamentos_devolvem_True p v :
  p !! "valor" = Some v -> formatavel v = true ->
  devolve (processar_pagamento PagamentoCartaoCredito) p (PyBool true)
  /\ devolve (processar_pagamento PagamentoBoleto) p (PyBool true)
  /\ devolve (processar_pagamento PagamentoPix) p (PyBool true).
Proof.
  intros Hv Hf. destruct pagamentos_somente_leitura as (H1 & H2 & H3).
  repeat split; try apply H1; try apply H2; try apply H3;
    (etransitivity; [apply (metodo_item_fim _ _ _ _ Hv)|]);
    unfold liga, formata; rewrite (formatavel_formato _ Hf); reflexivity.
Qed.

Lemma notificadores_devolvem_True p :
  (is_Some (p !! "cliente_email") ->
     devolve (enviar_notificacao NotificadorEmail) p (PyBool true))
  /\ (is_Some (p !! "id") ->
     devolve (enviar_notificacao NotificadorSMS) p (PyBool true)).
Proof.
  destruct notificadores_somente_leitura as (H1 & H2).
  split; intros [v Hv]; (split; [first [apply H1 | apply H2]|]);
    (etransitivity; [apply (metodo_item_fim _ _ _ _ Hv)|]); reflexivity.
Qed.

(** ** The factory *)

(** C8: the factory has three constructors, wired as they are named: credit
    card with [[Email]], boleto with [[Email]], and Pix with [[SMS; Email]]
    in that order.  Each one only builds the processor: run in any state, it
    returns the processor and leaves the order, the console and the trace as
    they were. *)
Theorem fabrica_constroi_como_nomeado (w : Mundo) :
  FabricaProcessadores.criar_processador_cartao_email w =
    (Retorna {| metodo_pagamento := PagamentoCartaoCredito;
                notificadores := [NotificadorEmail] |}, w)
  /\ FabricaProcessadores.criar_processador_boleto_email w =
    (Retorna {| metodo_pagamento := PagamentoBoleto;
                notificadores := [NotificadorEmail] |}, w)
  /\ FabricaProcessadores.criar_processador_pix_sms_email w =
    (Retorna {| metodo_pagamento := PagamentoPix;
                notificadores := [NotificadorSMS; NotificadorEmail] |}, w).
Proof. repeat split. Qed.

(** ** The runs of the example *)

Example cenario_cartao_email :
  let r := processar processador_cartao_email (mundo_inicial pedido1) in
  fst r = Retorna true
  /\ pedido (snd r) !! "status" = Some concluido
  /\ pagamentos (eventos (snd r)) = [PagamentoCartaoCredito]
  /\ notificacoes (eventos (snd r)) = [NotificadorEmail].
Proof. repeat split. Qed.

Example cenario_pix_sms_email :
  let r := processar processador_pix_sms_email (mundo_inicial pedido3) in
  fst r = Retorna true
  /\ notificacoes (eventos (snd r)) = [NotificadorSMS; NotificadorEmail].
Proof. repeat split. Qed.

Example cenario_pagamento_recusado :
  let self := {| metodo_pagamento := PagamentoFixo (PyBool false);
                 notificadores := [NotificadorEmail] |} in
  let r := processar self (mundo_inicial pedido1) in
  fst r = Retorna false
  /\ pedido (snd r) !! "status" = Some pendente
  /\ notificacoes (eventos (snd r)) = [].
Proof. repeat split. Qed.

(** ** The payment decides the answer *)

(** C1, as the code has it: for every valid order, a processor whose payment
    method returns a true value and whose notifiers all return (as the two
    of the repository do on a valid order) answers [True] and leaves the
    status [concluido]. *)
Theorem pagamento_aceito_conclui self w pago :
  pedido_valido (pedido w) = true ->
  devolve (processar_pagamento (metodo_pagamento self)) (pedido w) pago ->
  verdadeiro pago = true ->
  Forall (fun n => exists v, devolve (enviar_notificacao n) (pedido w) v)
         (notificadores self) ->
  fst (processar self w) = Retorna true
  /\ pedido (snd (processar self w)) !! "status" = Some concluido.
Proof.
  intros Hval [Hp Hv] Hpago Hns.
  destruct (pedido_valido_inv _ Hval) as (Hcab & _ & _).
  destruct (cabecalho_ok_inv _ Hcab) as (i & x & Hi & Hx & Hf).
  rewrite processar_eq, (processar_corpo_apos_cabecalho self w i x Hi Hx Hf).
  cbv zeta. rewrite Hv, Hpago, Hp.
  set (w1 := {| pedido := pedido w |}).
  destruct (notifica_devolve (notificadores self) w1 Hns) as (Hfim & _ & _).
  destruct (notifica (notificadores self) w1) as [[u|e] w2]; cbn in Hfim;
    [|discriminate].
  split; [reflexivity|]. cbn [snd pedido]. apply lookup_insert_eq.
Qed.

Lemma pedido1_valido : pedido_valido pedido1 = true.
Proof. reflexivity. Qed.

Lemma pedido1_campos :
  pedido1 !! "id" = Some (PyInt 123)
  /\ pedido1 !! "valor" = Some (PyFloat 150.75%float)
  /\ pedido1 !! "cliente_email" = Some (PyStr "cliente@exemplo.com")
  /\ pedido1 !! "status" = Some pendente.
Proof. repeat split. Qed.

Lemma pagamento_aceito_conclui_witness :
  fst (processar processador_cartao_email (mundo_inicial pedido1)) = Retorna true
  /\ pedido (snd (processar processador_cartao_email (mundo_inicial pedido1)))
       !! "status" = Some concluido.
Proof.
  apply (pagamento_aceito_conclui processador_cartao_email
           (mundo_inicial pedido1) (PyBool true)).
  - reflexivity.
  - split; reflexivity.
  - reflexivity.
  - repeat constructor. exists (PyBool true). split; reflexivity.
Defined.

(** C1 as stated fails: the order is valid and the payment method returns
    [True], but a notifier raises; the exception is caught, the answer is
    [False] and the status stays [pendente]. *)
Lemma notificador_falho_impede_conclusao :
  pedido_valido pedido1 = true
  /\ ef_fim (processar_pagamento
               (metodo_pagamento processador_cartao_notificador_falho) pedido1)
     = Retorna (PyBool true)
  /\ fst (processar processador_cartao_notificador_falho (mundo_inicial pedido1))
     = Retorna false
  /\ pedido (snd (processar processador_cartao_notificador_falho
                    (mundo_inicial pedido1))) !! "status" = Some pendente.
Proof. repeat split. Qed.

(** C2: for every valid order, a processor whose payment method returns a
    false value answers [False], leaves the order as it was (a status
    [pendente] stays [pendente]), and calls no notifier: the payment call is
    the only thing it does to its collaborators. *)
Theorem pagamento_recusado_nao_notifica self w pago :
  pedido_valido (pedido w) = true ->
  devolve (processar_pagamento (metodo_pagamento self)) (pedido w) pago ->
  verdadeiro pago = false ->
  fst (processar self w) = Retorna false
  /\ pedido (snd (processar self w)) = pedido w
  /\ (pedido w !! "status" = Some pendente ->
      pedido (snd (processar self w)) !! "status" = Some pendente)
  /\ eventos (snd (processar self w)) =
       eventos w ++ [EvPagamento (metodo_pagamento self)]
  /\ notificacoes (eventos (snd (processar self w))) = notificacoes (eventos w).
Proof.
  intros Hval [Hp Hv] Hpago.
  destruct (pedido_valido_inv _ Hval) as (Hcab & _ & _).
  destruct (cabecalho_ok_inv _ Hcab) as (i & x & Hi & Hx & Hf).
  rewrite processar_eq, (processar_corpo_apos_cabecalho self w i x Hi Hx Hf).
  cbv zeta. rewrite Hv, Hpago, Hp. cbn [fst snd pedido eventos].
  repeat split; try done.
  rewrite notificacoes_app. cbn. apply app_nil_r.
Qed.

Lemma pagamento_recusado_nao_notifica_witness :
  let self := {| metodo_pagamento := PagamentoFixo (PyBool false);
                 notificadores := [NotificadorSMS; NotificadorEmail] |} in
  let r := processar self (mundo_inicial pedido1) in
  fst r = Retorna false
  /\ pedido (snd r) = pedido1
  /\ (pedido1 !! "status" = Some pendente ->
      pedido (snd r) !! "status" = Some pendente)
  /\ eventos (snd r) = [] ++ [EvPagamento (PagamentoFixo (PyBool false))]
  /\ notificacoes (eventos (snd r)) = notificacoes [].
Proof.
  intros self r.
  apply (pagamento_recusado_nao_notifica self (mundo_inicial pedido1) (PyBool false)).
  - reflexivity.
  - split; reflexivity.
  - reflexivity.
Defined.

(** C10: a processor may be built with no notifier at all; for every valid
    order whose payment succeeds it answers [True] and sets the status to
    [concluido], and no notification is sent. *)
Theorem sem_notificadores_conclui mp w pago :
  pedido_valido (pedido w) = true ->
  ef_fim (processar_pagamento mp (pedido w)) = Retorna pago ->
  verdadeiro pago = true ->
  let self := {| metodo_pagamento := mp; notificadores := [] |} in
  novo_ProcessadorDePedidos mp [] w = (Retorna self, w)
  /\ fst (processar self w) = Retorna true
  /\ pedido (snd (processar self w)) !! "status" = Some concluido
  /\ notificacoes (eventos (snd (processar self w))) = notificacoes (eventos w).
Proof.
  intros Hval Hv Hpago self.
  destruct (pedido_valido_inv _ Hval) as (Hcab & _ & _).
  destruct (cabecalho_ok_inv _ Hcab) as (i & x & Hi & Hx & Hf).
  split; [reflexivity|].
  rewrite processar_eq, (processar_corpo_apos_cabecalho self w i x Hi Hx Hf).
  cbv zeta. subst self. cbn [metodo_pagamento notificadores].
  rewrite Hv, Hpago. cbn [notifica retorna fst snd pedido eventos].
  split; [reflexivity|]. split; [apply lookup_insert_eq|].
  rewrite !notificacoes_app. cbn. rewrite !app_nil_r. reflexivity.
Qed.

Lemma sem_notificadores_conclui_witness :
  let self := {| metodo_pagamento := PagamentoBoleto; notificadores := [] |} in
  novo_ProcessadorDePedidos PagamentoBoleto [] (mundo_inicial pedido1)
    = (Retorna self, mundo_inicial pedido1)
  /\ fst (processar self (mundo_inicial pedido1)) = Retorna true
  /\ pedido (snd (processar self (mundo_inicial pedido1))) !! "status"
       = Some concluido
  /\ notificacoes (eventos (snd (processar self (mundo_inicial pedido1))))
       = notificacoes [].
Proof.
  apply (sem_notificadores_conclui PagamentoBoleto (mundo_inicial pedido1)
           (PyBool true)); reflexivity.
Defined.

(** ** The implementations of the repository *)

(** C7: on every order with the required fields present, each of the three
    payment methods returns [True], and so does each of the two notifiers. *)
Theorem variantes_retornam_True (p : Pedido) :
  pedido_valido p = true ->
  ef_fim (processar_pagamento PagamentoCartaoCredito p) = Retorna (PyBool true)
  /\ ef_fim (processar_pagamento PagamentoBoleto p) = Retorna (PyBool true)
  /\ ef_fim (processar_pagamento PagamentoPix p) = Retorna (PyBool true)
  /\ ef_fim (enviar_notificacao NotificadorEmail p) = Retorna (PyBool true)
  /\ ef_fim (enviar_notificacao NotificadorSMS p) = Retorna (PyBool true).
Proof.
  intros Hval.
  destruct (pedido_valido_inv _ Hval) as (Hcab & Hemail & _).
  destruct (cabecalho_ok_inv _ Hcab) as (i & x & Hi & Hx & Hf).
  destruct (pagamentos_devolvem_True p x Hx Hf) as ([_ H1] & [_ H2] & [_ H3]).
  destruct (notificadores_devolvem_True p) as (H4 & H5).
  destruct (H4 Hemail) as [_ H4']. destruct (H5 (ex_intro _ i Hi)) as [_ H5'].
  auto.
Qed.

Lemma variantes_retornam_True_witness :
  ef_fim (processar_pagamento PagamentoCartaoCredito pedido3) = Retorna (PyBool true)
  /\ ef_fim (processar_pagamento PagamentoBoleto pedido3) = Retorna (PyBool true)
  /\ ef_fim (processar_pagamento PagamentoPix pedido3) = Retorna (PyBool true)
  /\ ef_fim (enviar_notificacao NotificadorEmail pedido3) = Retorna (PyBool true)
  /\ ef_fim (enviar_notificacao NotificadorSMS pedido3) = Retorna (PyBool true).
Proof. apply (variantes_retornam_True pedido3). reflexivity. Defined.

(** ** What [processar] writes *)





Lemma PagamentoFixo_somente_leitura v :
  somente_leitura (processar_pagamento (PagamentoFixo v)).
Proof. intros p. reflexivity. Qed.


(** ** Exceptions *)





(** ** The status *)




(** ** The notifiers *)

(** C5, as the code has it: when the payment succeeds, the notifiers are
    called in the order of the list, each at most once, up to the first one
    that raises; the answer is [True] only if the whole list was called; and
    when every notifier returns, whatever the values, each one is called
    exactly once and the answer is [True]. *)
Theorem notificadores_em_ordem self w pago :
  cabecalho_ok (pedido w) = true ->
  devolve (processar_pagamento (metodo_pagamento self)) (pedido w) pago ->
  verdadeiro pago = true ->
  (exists k,
     notificacoes (eventos (snd (processar self w))) =
       notificacoes (eventos w) ++ take k (notificadores self)
     /\ (fst (processar self w) = Retorna true -> k = length (notificadores self)))
  /\ (Forall (fun n => exists v, devolve (enviar_notificacao n) (pedido w) v)
             (notificadores self) ->
      fst (processar self w) = Retorna true
      /\ notificacoes (eventos (snd (processar self w))) =
           notificacoes (eventos w) ++ notificadores self).
Proof.
  intros Hcab [Hp Hv] Hpago.
  destruct (cabecalho_ok_inv _ Hcab) as (i & x & Hi & Hx & Hf).
  rewrite processar_eq, (processar_corpo_apos_cabecalho self w i x Hi Hx Hf).
  cbv zeta. rewrite Hv, Hpago, Hp.
  set (w1 := {| pedido := pedido w |}).
  destruct (notifica_eventos (notificadores self) w1) as (k & Hk & Hev & Hfim).
  pose proof (notifica_devolve (notificadores self) w1) as Hdev.
  assert (Hw1 : notificacoes (eventos w1) = notificacoes (eventos w)).
  { subst w1. cbn. rewrite notificacoes_app. cbn. apply app_nil_r. }
  destruct (notifica (notificadores self) w1) as [[u|e] w2]; cbn [fst snd] in *.
  - cbn [fst snd eventos]. specialize (Hfim u eq_refl). subst k.
    rewrite firstn_all in Hev.
    assert (Hnot : notificacoes (eventos w2 ++ [EvAtribui "status" concluido]) =
                   notificacoes (eventos w) ++ notificadores self).
    { rewrite Hev, !notificacoes_app, notificacoes_map, Hw1. cbn.
      rewrite app_nil_r. reflexivity. }
    split.
    + exists (length (notificadores self)). rewrite firstn_all. auto.
    + intros _. auto.
  - assert (Hnot : notificacoes (eventos w2) =
                   notificacoes (eventos w) ++ take k (notificadores self)).
    { rewrite Hev, notificacoes_app, <- firstn_map, Hw1.
      rewrite firstn_map, notificacoes_map. reflexivity. }
    split.
    + exists k. destruct (e_Exception e); cbn [fst snd eventos];
        (split; [exact Hnot | discriminate]).
    + intros Hns. destruct (Hdev Hns) as (Habs & _). discriminate Habs.
Qed.

Lemma notificadores_em_ordem_witness :
  fst (processar processador_pix_sms_email (mundo_inicial pedido3)) = Retorna true
  /\ notificacoes (eventos (snd (processar processador_pix_sms_email
                                   (mundo_inicial pedido3))))
     = notificacoes [] ++ [NotificadorSMS; NotificadorEmail].
Proof.
  refine (proj2 (notificadores_em_ordem processador_pix_sms_email
                   (mundo_inicial pedido3) (PyBool true) _ _ _) _).
  - reflexivity.
  - split; reflexivity.
  - reflexivity.
  - constructor; [exists (PyBool true); split; reflexivity|].
    constructor; [exists (PyBool true); split; reflexivity | constructor].
Defined.

(** C5 as stated fails: on an order without the e-mail field, the Pix
    payment succeeds, the e-mail notifier raises, and the SMS notifier that
    follows it in the list is never called. *)
Lemma notificador_seguinte_nao_chamado :
  ef_fim (processar_pagamento PagamentoPix pedido_sem_email) = Retorna (PyBool true)
  /\ notificadores processador_pix_email_sms = [NotificadorEmail; NotificadorSMS]
  /\ notificacoes (eventos (snd (processar processador_pix_email_sms
                                   (mundo_inicial pedido_sem_email))))
     = [NotificadorEmail]
  /\ fst (processar processador_pix_email_sms (mundo_inicial pedido_sem_email))
     = Retorna false.
Proof. repeat split. Qed.

(** * Further properties of the code *)

(** ** Orders that do not get past the opening line *)

(** The opening line of [processar] needs ['id'] and a formattable
    ['valor'].  Without them the run stops there, whatever the processor:
    the answer is [False], no payment method and no notifier is called, the
    order is untouched, and one line, the error line, is printed. *)
Theorem pedido_malformado_nada_e_chamado self w :
  cabecalho_ok (pedido w) = false ->
  fst (processar self w) = Retorna false
  /\ pedido (snd (processar self w)) = pedido w
  /\ eventos (snd (processar self w)) = eventos w
  /\ exists e, e_Exception e = true
       /\ saida (snd (processar self w)) = saida w ++ [linha_erro e].
Proof.
  intros Hcab. rewrite processar_eq.
  destruct (processar_corpo_sem_cabecalho self w Hcab) as (e & -> & He).
  rewrite He. cbn. repeat split. eauto.
Qed.

Lemma pedido_malformado_nada_e_chamado_witness :
  fst (processar processador_pix_sms_email (mundo_inicial pedido_sem_id))
    = Retorna false
  /\ pedido (snd (processar processador_pix_sms_email (mundo_inicial pedido_sem_id)))
     = pedido_sem_id
  /\ eventos (snd (processar processador_pix_sms_email (mundo_inicial pedido_sem_id)))
     = []
  /\ exists e, e_Exception e = true
       /\ saida (snd (processar processador_pix_sms_email (mundo_inicial pedido_sem_id)))
          = [] ++ [linha_erro e].
Proof.
  apply (pedido_malformado_nada_e_chamado processador_pix_sms_email
           (mundo_inicial pedido_sem_id)).
  reflexivity.
Defined.

(** Which error the error line reports: ['id'] is read before ['valor'], so
    a missing ['id'] is reported even when ['valor'] is missing too; then a
    missing ['valor']; then what the format raises on an amount that is not
    a number ([ValueError] for text, [TypeError] for [None]). *)
Theorem erro_relatado_pelo_cabecalho self w :
  (pedido w !! "id" = None ->
     saida (snd (processar self w)) = saida w ++ [linha_erro (KeyError "id")])
  /\ (is_Some (pedido w !! "id") -> pedido w !! "valor" = None ->
     saida (snd (processar self w)) = saida w ++ [linha_erro (KeyError "valor")])
  /\ (forall s, is_Some (pedido w !! "id") -> pedido w !! "valor" = Some (PyStr s) ->
     saida (snd (processar self w)) = saida w ++ [linha_erro ValueError])
  /\ (is_Some (pedido w !! "id") -> pedido w !! "valor" = Some PyNone ->
     saida (snd (processar self w)) = saida w ++ [linha_erro TypeError]).
Proof.
  unfold processar, tenta, processar_corpo.
  repeat split.
  - intros Hi. unfold liga at 1, item. rewrite Hi. reflexivity.
  - intros [i Hi] Hv. unfold liga at 1, item. rewrite Hi.
    unfold liga at 1. rewrite Hv. reflexivity.
  - intros s [i Hi] Hv. unfold liga at 1, item. rewrite Hi.
    unfold liga at 1. rewrite Hv. reflexivity.
  - intros [i Hi] Hv. unfold liga at 1, item. rewrite Hi.
    unfold liga at 1. rewrite Hv. reflexivity.
Qed.

Lemma erro_relatado_pelo_cabecalho_witness :
  saida (snd (processar processador_cartao_email (mundo_inicial pedido_valor_texto)))
    = [] ++ [linha_erro ValueError].
Proof.
  refine (proj1 (proj2 (proj2 (erro_relatado_pelo_cabecalho processador_cartao_email
            (mundo_inicial pedido_valor_texto)))) "150,75" _ _).
  - exists (PyInt 123). reflexivity.
  - reflexivity.
Defined.

(** ** A payment method that raises *)



(** ** The shape of every run *)

Lemma notifica_saida ns w :
  exists ls, saida (snd (notifica ns w)) = saida w ++ ls.
Proof.
  revert w. induction ns as [|n ns IH]; intros w.
  - exists []. cbn. rewrite app_nil_r. reflexivity.
  - rewrite notifica_cons. cbv zeta.
    destruct (ef_fim (enviar_notificacao n (pedido w))) as [v|e].
    + destruct (IH {| pedido := ef_pedido (enviar_notificacao n (pedido w));
                      saida := saida w ++ ef_saida (enviar_notificacao n (pedido w));
                      eventos := eventos w ++ [EvNotificacao n] |}) as (ls & Hls).
      eexists. rewrite Hls. cbn. rewrite <- app_assoc. reflexivity.
    + eexists. cbn. reflexivity.
Qed.


(** Whatever the order and the collaborators, [processar] only adds lines
    to the console, and when it returns the last line tells the answer: the
    conclusion line for [True]; for [False] the refusal line or the error
    line of an exception that derives from [Exception]. *)
Theorem ultima_linha_diz_o_resultado self w :
  (fst (processar self w) = Retorna true ->
     exists meio, saida (snd (processar self w)) =
       saida w ++ meio ++ [linha_concluido])
  /\ (fst (processar self w) = Retorna false ->
     exists meio ultima,
       saida (snd (processar self w)) = saida w ++ meio ++ [ultima]
       /\ (ultima = linha_falha
           \/ exists e, e_Exception e = true /\ ultima = linha_erro e)).
Proof.
  rewrite processar_eq.
  destruct (cabecalho_ok (pedido w)) eqn:Hcab.
  - destruct (cabecalho_ok_inv _ Hcab) as (i & x & Hi & Hx & Hf).
    rewrite (processar_corpo_apos_cabecalho self w i x Hi Hx Hf). cbv zeta.
    set (ef := processar_pagamento (metodo_pagamento self) (pedido w)).
    set (w1 := {| pedido := ef_pedido ef |}).
    assert (Hs1 : saida w1 = saida w ++ (linha_abertura i x :: ef_saida ef)).
    { subst w1. cbn [saida]. rewrite <- app_assoc. reflexivity. }
    destruct (ef_fim ef) as [pago|e].
    + destruct (verdadeiro pago).
      * destruct (notifica_saida (notificadores self) w1) as (ls & Hls).
        destruct (notifica (notificadores self) w1) as [[u|e] w2]; cbn [fst snd] in *.
        -- split; [|discriminate]. intros _. cbn [saida].
           exists ((linha_abertura i x :: ef_saida ef) ++ ls).
           rewrite Hls, Hs1. cbn. rewrite <- ?app_assoc. reflexivity.
        -- destruct (e_Exception e) eqn:He; cbn [fst snd saida];
             (split; [discriminate|]); [|discriminate].
           intros _. exists ((linha_abertura i x :: ef_saida ef) ++ ls), (linha_erro e).
           split; [rewrite Hls, Hs1; cbn; rewrite <- ?app_assoc; reflexivity | right; eauto].
      * cbn [fst snd saida]. split; [discriminate|]. intros _.
        exists (linha_abertura i x :: ef_saida ef), linha_falha.
        split; [cbn; rewrite <- ?app_assoc; reflexivity | left; reflexivity].
    + destruct (e_Exception e) eqn:He; cbn [fst snd saida];
        (split; [discriminate|]); [|discriminate].
      intros _. exists (linha_abertura i x :: ef_saida ef), (linha_erro e).
      split; [cbn; rewrite <- ?app_assoc; reflexivity | right; eauto].
  - destruct (processar_corpo_sem_cabecalho self w Hcab) as (e & -> & He).
    rewrite He. cbn [fst snd saida]. split; [discriminate|]. intros _.
    exists [], (linha_erro e). split; [reflexivity | right; eauto].
Qed.

Lemma ultima_linha_diz_o_resultado_witness :
  exists meio, saida (snd (processar processador_cartao_email (mundo_inicial pedido1)))
    = [] ++ meio ++ [linha_concluido].
Proof.
  apply (ultima_linha_diz_o_resultado processador_cartao_email (mundo_inicial pedido1)).
  reflexivity.
Defined.

(** ** A notifier that raises *)




(** ** The implementations, one by one *)

Lemma metodo_item_sem_campo chave (k : PyVal -> Py PyVal) p :
  p !! chave = None ->
  metodo (x <- item chave ;; k x) p =
    {| ef_pedido := p; ef_saida := []; ef_fim := Levanta (KeyError chave) |}.
Proof. intros H. unfold metodo, liga, item. cbn [pedido]. rewrite H. reflexivity. Qed.

Lemma metodo_item_com_campo chave (k : PyVal -> Py PyVal) p v :
  p !! chave = Some v ->
  metodo (x <- item chave ;; k x) p =
    let r := k v (mundo_inicial p) in
    {| ef_pedido := pedido (snd r); ef_saida := saida (snd r); ef_fim := fst r |}.
Proof. intros H. unfold metodo, liga, item. cbn [pedido]. rewrite H. reflexivity. Qed.

(** Each payment method succeeds exactly on the orders whose amount is
    there and is a number; on every other it raises ([KeyError] when the
    amount is missing) having printed nothing, so a failed payment leaves no
    line on the console. *)
Theorem pagamento_falha_sem_imprimir (m : MetodoPagamento) (p : Pedido) :
  In m [PagamentoCartaoCredito; PagamentoBoleto; PagamentoPix] ->
  (ef_fim (processar_pagamento m p) = Retorna (PyBool true) <->
     exists v, p !! "valor" = Some v /\ formatavel v = true)
  /\ (p !! "valor" = None ->
      ef_fim (processar_pagamento m p) = Levanta (KeyError "valor"))
  /\ (forall e, ef_fim (processar_pagamento m p) = Levanta e ->
      ef_saida (processar_pagamento m p) = []).
Proof.
  intros Hm.
  assert (Hcasos :
    (p !! "valor" = None /\
       processar_pagamento m p =
         {| ef_pedido := p; ef_saida := []; ef_fim := Levanta (KeyError "valor") |})
    \/ (exists v e, p !! "valor" = Some v /\ formato_2f v = Levanta e /\
       processar_pagamento m p =
         {| ef_pedido := p; ef_saida := []; ef_fim := Levanta e |})
    \/ (exists v, p !! "valor" = Some v /\ formatavel v = true /\
       ef_fim (processar_pagamento m p) = Retorna (PyBool true))).
  { destruct (p !! "valor") as [v|] eqn:Hv.
    - right. destruct (formato_2f v) as [t|e] eqn:Hf.
      + right. exists v. assert (Hfv : formatavel v = true)
          by (unfold formatavel; rewrite Hf; reflexivity).
        split; [reflexivity|]. split; [exact Hfv|].
        destruct (pagamentos_devolvem_True p v Hv Hfv) as ([_ H1] & [_ H2] & [_ H3]).
        cbn in Hm. destruct Hm as [<-|[<-|[<-|[]]]]; assumption.
      + left. exists v, e. split; [reflexivity|]. split; [exact Hf|].
        cbn in Hm. destruct Hm as [<-|[<-|[<-|[]]]];
          (etransitivity; [apply (metodo_item_com_campo _ _ _ _ Hv)|]);
          cbv zeta; unfold liga, formata; rewrite Hf; reflexivity.
    - left. split; [reflexivity|].
      cbn in Hm. destruct Hm as [<-|[<-|[<-|[]]]];
        apply (metodo_item_sem_campo _ _ _ Hv). }
  destruct Hcasos as [(Hv & Hef)|[(v & e & Hv & Hf & Hef)|(v & Hv & Hfv & Hfim)]].
  - rewrite Hef. cbn. split; [split; [discriminate|]|].
    + intros (v & Hv' & _). congruence.
    + split; [reflexivity|]. reflexivity.
  - rewrite Hef. cbn. split; [split; [discriminate|]|].
    + intros (v' & Hv' & Hfv'). unfold formatavel in Hfv'.
      assert (v' = v) by congruence. subst v'. rewrite Hf in Hfv'. discriminate.
    + split; [congruence | reflexivity].
  - rewrite Hfim. split; [split; [eauto | reflexivity]|].
    split; [congruence | discriminate].
Qed.

Lemma pagamento_falha_sem_imprimir_witness :
  ef_saida (processar_pagamento PagamentoPix pedido_valor_texto) = [].
Proof.
  refine (proj2 (proj2 (pagamento_falha_sem_imprimir PagamentoPix pedido_valor_texto _))
            ValueError _).
  - right; right; left; reflexivity.
  - reflexivity.
Defined.

(** Each notifier succeeds exactly on the orders that have the one field it
    reads (the e-mail address for [NotificadorEmail], the identifier for
    [NotificadorSMS]); without it the notifier raises [KeyError] for that
    field, prints nothing and leaves the order alone. *)
Theorem notificador_falha_sem_imprimir (p : Pedido) :
  (ef_fim (enviar_notificacao NotificadorEmail p) = Retorna (PyBool true) <->
     is_Some (p !! "cliente_email"))
  /\ (p !! "cliente_email" = None ->
      enviar_notificacao NotificadorEmail p =
        {| ef_pedido := p; ef_saida := [];
           ef_fim := Levanta (KeyError "cliente_email") |})
  /\ (ef_fim (enviar_notificacao NotificadorSMS p) = Retorna (PyBool true) <->
     is_Some (p !! "id"))
  /\ (p !! "id" = None ->
      enviar_notificacao NotificadorSMS p =
        {| ef_pedido := p; ef_saida := []; ef_fim := Levanta (KeyError "id") |}).
Proof.
  destruct (notificadores_devolvem_True p) as (Hemail & Hsms).
  assert (HE : p !! "cliente_email" = None ->
      enviar_notificacao NotificadorEmail p =
        {| ef_pedido := p; ef_saida := [];
           ef_fim := Levanta (KeyError "cliente_email") |})
    by (intros H; apply (metodo_item_sem_campo _ _ _ H)).
  assert (HS : p !! "id" = None ->
      enviar_notificacao NotificadorSMS p =
        {| ef_pedido := p; ef_saida := []; ef_fim := Levanta (KeyError "id") |})
    by (intros H; apply (metodo_item_sem_campo _ _ _ H)).
  repeat split; try assumption.
  - intros H. destruct (p !! "cliente_email") eqn:Hc; [eauto|].
    rewrite (HE eq_refl) in H. discriminate H.
  - intros H. apply Hemail, H.
  - intros H. destruct (p !! "id") eqn:Hc; [eauto|].
    rewrite (HS eq_refl) in H. discriminate H.
  - intros H. apply Hsms, H.
Qed.

Lemma notificador_falha_sem_imprimir_witness :
  enviar_notificacao NotificadorEmail pedido_sem_email =
    {| ef_pedido := pedido_sem_email; ef_saida := [];
       ef_fim := Levanta (KeyError "cliente_email") |}.
Proof.
  apply (notificador_falha_sem_imprimir pedido_sem_email). reflexivity.
Defined.

Lemma metodo_item_mesmo_campo chave (k : PyVal -> Py PyVal) p q :
  p !! chave = q !! chave ->
  (forall v w1 w2, saida w1 = saida w2 ->
     fst (k v w1) = fst (k v w2) /\ saida (snd (k v w1)) = saida (snd (k v w2))) ->
  ef_fim (metodo (x <- item chave ;; k x) p) = ef_fim (metodo (x <- item chave ;; k x) q)
  /\ ef_saida (metodo (x <- item chave ;; k x) p)
     = ef_saida (metodo (x <- item chave ;; k x) q).
Proof.
  intros Hpq Hk. unfold metodo, liga, item. cbn [pedido ef_fim ef_saida].
  rewrite Hpq. destruct (q !! chave) as [v|]; [|split; reflexivity].
  apply Hk. reflexivity.
Qed.

(** What an implementation prints and answers depends on one field of the
    order only: the amount for the three payment methods, the e-mail address
    for [NotificadorEmail], the identifier for [NotificadorSMS] (which reads
    no telephone number).  Two orders that agree on that field get the same
    lines and the same answer. *)
Theorem implementacoes_leem_um_campo (p q : Pedido) :
  (p !! "valor" = q !! "valor" ->
     forall m, In m [PagamentoCartaoCredito; PagamentoBoleto; PagamentoPix] ->
     ef_fim (processar_pagamento m p) = ef_fim (processar_pagamento m q)
     /\ ef_saida (processar_pagamento m p) = ef_saida (processar_pagamento m q))
  /\ (p !! "cliente_email" = q !! "cliente_email" ->
     ef_fim (enviar_notificacao NotificadorEmail p)
       = ef_fim (enviar_notificacao NotificadorEmail q)
     /\ ef_saida (enviar_notificacao NotificadorEmail p)
       = ef_saida (enviar_notificacao NotificadorEmail q))
  /\ (p !! "id" = q !! "id" ->
     ef_fim (enviar_notificacao NotificadorSMS p)
       = ef_fim (enviar_notificacao NotificadorSMS q)
     /\ ef_saida (enviar_notificacao NotificadorSMS p)
       = ef_saida (enviar_notificacao NotificadorSMS q)).
Proof.
  repeat apply conj.
  - intros Hpq m Hm. cbn in Hm.
    destruct Hm as [<-|[<-|[<-|[]]]];
      (apply (metodo_item_mesmo_campo _ _ _ _ Hpq); intros v w1 w2 Hw;
       unfold liga, formata; destruct (formato_2f v); cbn; rewrite ?Hw; auto).
  - intros Hpq. apply (metodo_item_mesmo_campo _ _ _ _ Hpq).
    intros v w1 w2 Hw. cbn. rewrite Hw. auto.
  - intros Hpq. apply (metodo_item_mesmo_campo _ _ _ _ Hpq).
    intros v w1 w2 Hw. cbn. rewrite Hw. auto.
Qed.

Lemma implementacoes_leem_um_campo_witness :
  ef_fim (enviar_notificacao NotificadorSMS pedido1)
    = ef_fim (enviar_notificacao NotificadorSMS pedido_sem_email)
  /\ ef_saida (enviar_notificacao NotificadorSMS pedido1)
    = ef_saida (enviar_notificacao NotificadorSMS pedido_sem_email).
Proof.
  apply (implementacoes_leem_um_campo pedido1 pedido_sem_email). reflexivity.
Defined.

(** ** Processors of the repository *)

Lemma processar_conclui self w pago :
  cabecalho_ok (pedido w) = true ->
  devolve (processar_pagamento (metodo_pagamento self)) (pedido w) pago ->
  verdadeiro pago = true ->
  Forall (fun n => exists v, devolve (enviar_notificacao n) (pedido w) v)
         (notificadores self) ->
  fst (processar self w) = Retorna true
  /\ pedido (snd (processar self w)) = <["status" := concluido]> (pedido w)
  /\ eventos (snd (processar self w)) = eventos w ++ eventos_completos self.
Proof.
  intros Hcab [Hp Hv] Hpago Hns.
  destruct (cabecalho_ok_inv _ Hcab) as (i & x & Hi & Hx & Hf).
  rewrite processar_eq, (processar_corpo_apos_cabecalho self w i x Hi Hx Hf).
  cbv zeta. rewrite Hv, Hpago, Hp.
  set (w1 := {| pedido := pedido w |}).
  destruct (notifica_devolve (notificadores self) w1 Hns) as (Hfim & Hped & Hev).
  destruct (notifica (notificadores self) w1) as [[u|e] w2]; cbn [fst snd] in *;
    [|discriminate].
  cbn [pedido eventos]. rewrite Hped, Hev. subst w1. cbn [pedido eventos].
  unfold eventos_completos. rewrite <- !app_assoc. repeat split.
Qed.

Lemma processar_fabrica_email m ns w :
  In m [PagamentoCartaoCredito; PagamentoBoleto; PagamentoPix] ->
  ns = [NotificadorEmail] \/ ns = [NotificadorSMS; NotificadorEmail] ->
  fst (processar {| metodo_pagamento := m; notificadores := ns |} w) =
    Retorna (cabecalho_ok (pedido w)
             && bool_decide (is_Some (pedido w !! "cliente_email"))).
Proof.
  intros Hm Hns.
  destruct (cabecalho_ok (pedido w)) eqn:Hcab; cbn [andb].
  - destruct (cabecalho_ok_inv _ Hcab) as (i & x & Hi & Hx & Hf).
    assert (Hpag : devolve (processar_pagamento m) (pedido w) (PyBool true)).
    { destruct (pagamentos_devolvem_True (pedido w) x Hx Hf) as (H1 & H2 & H3).
      cbn in Hm. destruct Hm as [<-|[<-|[<-|[]]]]; assumption. }
    destruct (notificadores_devolvem_True (pedido w)) as (Hemail & Hsms).
    specialize (Hsms (ex_intro _ i Hi)).
    destruct (pedido w !! "cliente_email") as [c|] eqn:Hc.
    + rewrite bool_decide_eq_true_2 by eauto.
      apply (processar_conclui {| metodo_pagamento := m; notificadores := ns |}
               w (PyBool true) Hcab Hpag eq_refl).
      cbn [notificadores]. specialize (Hemail (ex_intro _ c eq_refl)).
      destruct Hns as [->| ->]; repeat constructor; eauto.
    + rewrite bool_decide_eq_false_2 by (intros [? ?]; discriminate).
      assert (Hfalha : ef_fim (enviar_notificacao NotificadorEmail (pedido w))
                       = Levanta (KeyError "cliente_email")).
      { etransitivity; [apply f_equal, (metodo_item_sem_campo _ _ _ Hc)|]. reflexivity. }
      destruct Hpag as [Hp Hv].
      rewrite processar_eq,
        (processar_corpo_apos_cabecalho _ w i x Hi Hx Hf).
      cbv zeta. cbn [metodo_pagamento notificadores]. rewrite Hv, Hp. cbn [verdadeiro].
      destruct Hns as [->| ->].
      * rewrite notifica_cons. cbv zeta. cbn [pedido]. rewrite Hfalha. reflexivity.
      * rewrite notifica_cons. cbv zeta. cbn [pedido].
        destruct Hsms as [Hps Hvs]. rewrite Hvs, Hps.
        rewrite notifica_cons. cbv zeta. cbn [pedido]. rewrite Hfalha. reflexivity.
  - destruct (processar_corpo_sem_cabecalho
                {| metodo_pagamento := m; notificadores := ns |} w Hcab)
      as (e & He & Hexc).
    rewrite processar_eq, He, Hexc. reflexivity.
Qed.

(** Building a processor with the factory and running it never raises, and
    the answer is decided by the order alone: [True] exactly when the order
    has its identifier, an amount that is a number, and the e-mail address;
    the same for the three combinations of the factory. *)
Theorem fabrica_depois_processar (w : Mundo) :
  let aceito := cabecalho_ok (pedido w)
                && bool_decide (is_Some (pedido w !! "cliente_email")) in
  fst ((self <- FabricaProcessadores.criar_processador_cartao_email ;;
        processar self) w) = Retorna aceito
  /\ fst ((self <- FabricaProcessadores.criar_processador_boleto_email ;;
        processar self) w) = Retorna aceito
  /\ fst ((self <- FabricaProcessadores.criar_processador_pix_sms_email ;;
        processar self) w) = Retorna aceito.
Proof.
  cbv zeta. repeat split;
    (etransitivity; [|apply processar_fabrica_email]); try reflexivity; cbn; auto.
Qed.

Lemma pedido_valido_concluido p :
  pedido_valido p = true ->
  pedido_valido (<["status" := concluido]> p) = true.
Proof.
  unfold pedido_valido.
  rewrite !lookup_insert_ne by discriminate. rewrite lookup_insert_eq.
  destruct (p !! "id"); [|discriminate]. destruct (p !! "valor"); [|discriminate].
  destruct (p !! "cliente_email"); [|discriminate].
  destruct (p !! "status"); [|discriminate]. auto.
Qed.

Lemma pagamentos_app l1 l2 :
  pagamentos (l1 ++ l2) = pagamentos l1 ++ pagamentos l2.
Proof.
  induction l1 as [|[m|n|c v] l1 IH]; cbn; [reflexivity | | exact IH | exact IH].
  f_equal. exact IH.
Qed.

Lemma pagamentos_completos self :
  pagamentos (eventos_completos self) = [metodo_pagamento self].
Proof.
  unfold eventos_completos. cbn. f_equal. rewrite pagamentos_app. cbn.
  rewrite app_nil_r. induction (notificadores self) as [|n ns IH]; [reflexivity | exact IH].
Qed.

Lemma notificacoes_completos self :
  notificacoes (eventos_completos self) = notificadores self.
Proof.
  unfold eventos_completos. cbn. rewrite notificacoes_app, notificacoes_map. cbn.
  apply app_nil_r.
Qed.

Lemma processar_repositorio_valido self w :
  In (metodo_pagamento self)
     [PagamentoCartaoCredito; PagamentoBoleto; PagamentoPix] ->
  Forall (fun n => In n [NotificadorEmail; NotificadorSMS]) (notificadores self) ->
  pedido_valido (pedido w) = true ->
  fst (processar self w) = Retorna true
  /\ pedido (snd (processar self w)) = <["status" := concluido]> (pedido w)
  /\ eventos (snd (processar self w)) = eventos w ++ eventos_completos self.
Proof.
  intros Hm Hns Hval.
  destruct (pedido_valido_inv _ Hval) as (Hcab & Hemail & _).
  destruct (cabecalho_ok_inv _ Hcab) as (i & x & Hi & Hx & Hf).
  apply (processar_conclui self w (PyBool true) Hcab); [|reflexivity|].
  - destruct (pagamentos_devolvem_True (pedido w) x Hx Hf) as (H1 & H2 & H3).
    cbn in Hm. destruct Hm as [<-|[<-|[<-|[]]]]; assumption.
  - destruct (notificadores_devolvem_True (pedido w)) as (HE & HS).
    eapply Forall_impl; [exact Hns|]. cbn.
    intros n [<-|[<-|[]]]; exists (PyBool true); [apply HE | apply HS]; eauto.
Qed.

(** [processar] does not look at the status, so nothing stops a second run
    on an order already concluded: with the payment methods and notifiers of
    the repository and a valid order, both runs answer [True], the second
    leaves the order as the first left it, and the payment method and every
    notifier are called a second time. *)
Theorem reprocessar_repete_pagamento self w :
  In (metodo_pagamento self)
     [PagamentoCartaoCredito; PagamentoBoleto; PagamentoPix] ->
  Forall (fun n => In n [NotificadorEmail; NotificadorSMS]) (notificadores self) ->
  pedido_valido (pedido w) = true ->
  let w1 := snd (processar self w) in
  fst (processar self w) = Retorna true
  /\ fst (processar self w1) = Retorna true
  /\ pedido (snd (processar self w1)) = pedido w1
  /\ pagamentos (eventos (snd (processar self w1))) =
       pagamentos (eventos w) ++ [metodo_pagamento self; metodo_pagamento self]
  /\ notificacoes (eventos (snd (processar self w1))) =
       notificacoes (eventos w) ++ notificadores self ++ notificadores self.
Proof.
  intros Hm Hns Hval w1.
  destruct (processar_repositorio_valido self w Hm Hns Hval) as (Hf1 & Hp1 & He1).
  assert (Hval1 : pedido_valido (pedido w1) = true).
  { subst w1. rewrite Hp1. apply pedido_valido_concluido, Hval. }
  destruct (processar_repositorio_valido self w1 Hm Hns Hval1) as (Hf2 & Hp2 & He2).
  split; [exact Hf1|]. split; [exact Hf2|]. split.
  - rewrite Hp2. subst w1. rewrite Hp1. apply insert_insert_eq.
  - rewrite He2. subst w1. rewrite He1.
    rewrite !pagamentos_app, !notificacoes_app, pagamentos_completos,
      notificacoes_completos, <- !app_assoc. split; reflexivity.
Qed.

Lemma reprocessar_repete_pagamento_witness :
  let w1 := snd (processar processador_cartao_email (mundo_inicial pedido1)) in
  fst (processar processador_cartao_email (mundo_inicial pedido1)) = Retorna true
  /\ fst (processar processador_cartao_email w1) = Retorna true
  /\ pedido (snd (processar processador_cartao_email w1)) = pedido w1
  /\ pagamentos (eventos (snd (processar processador_cartao_email w1))) =
       pagamentos [] ++ [PagamentoCartaoCredito; PagamentoCartaoCredito]
  /\ notificacoes (eventos (snd (processar processador_cartao_email w1))) =
       notificacoes [] ++ [NotificadorEmail] ++ [NotificadorEmail].
Proof.
  apply (reprocessar_repete_pagamento processador_cartao_email (mundo_inicial pedido1)).
  - left; reflexivity.
  - constructor; [left; reflexivity | constructor].
  - reflexivity.
Defined.
